(** * Architecture layering validator (check_layer_violations.py)

    A shallow embedding of the script that checks a table of service
    dependencies against a table of service layers and reports every
    dependency that points from a lower layer to a higher one.

    Python data is modelled as follows:
    - [SERVICE_LAYERS], a dict from names to ints that is only queried by
      key, is a [gmap string Z];
    - [DEPENDENCIES], a dict that is only iterated with [.items()], is the
      list of its items in insertion order (the keys of a real dict are
      pairwise distinct; no theorem below needs that);
    - the local list [violations] and the text written by [print] are the
      two fields of the loop state [Run]; [print] appends one line. *)

From stdpp Require Import gmap strings list pretty.

Local Open Scope Z_scope.
Local Open Scope string_scope.
Local Open Scope list_scope.

Module LayerCheck.

(** ** Data *)

(** The dict appended to [violations] at lines 166-172. *)
Record Violation := mkViolation {
  service : string;
  service_layer : Z;
  dependency : string;
  dependency_layer : Z;
  violation : string
}.

#[global] Instance Violation_eq_dec : EqDecision Violation.
Proof. solve_decision. Defined.

(** State of one pass: the local list and the standard output so far. *)
Record Run := mkRun {
  violations : list Violation;
  stdout : list string
}.

(** A dict display [{k1: v1, ..., kn: vn}]: keys are inserted from left to
    right, a repeated key keeps the later value. *)
Definition dict_literal (items : list (string * Z)) : gmap string Z :=
  fold_left (fun m kv => <[kv.1 := kv.2]> m) items ∅.

(** ** Output *)

Definition print (line : string) (st : Run) : Run :=
  {| violations := violations st; stdout := stdout st ++ [line] |}.

Definition append_violation (v : Violation) (st : Run) : Run :=
  {| violations := violations st ++ [v]; stdout := stdout st |}.

(** f-string of line 149. *)
Definition warn_service (service : string) : string :=
  "⚠️  警告: " +:+ service +:+ " 不在层级映射中".

(** f-string of line 159. *)
Definition warn_dep (dep : string) : string :=
  "⚠️  警告: 依赖 " +:+ dep +:+ " 不在层级映射中".

(** f-string of line 171. *)
Definition violation_text (service_layer dep_layer : Z) : string :=
  "第" +:+ pretty service_layer +:+ "层 → 第" +:+ pretty dep_layer +:+ "层".

(** The list literal of line 157. *)
Definition always_allowed : list string := ["eventBus"; "stateManager"].

(** ** check_dependencies *)

Section Validator.

Variable SERVICE_LAYERS : gmap string Z.

(** Body of the inner loop, lines 155-172. *)
Definition check_dep (service : string) (service_layer : Z)
    (st : Run) (dep : string) : Run :=
  match SERVICE_LAYERS !! dep with
  | None =>
      if bool_decide (dep ∈ always_allowed) then st
      else print (warn_dep dep) st
  | Some dep_layer =>
      if bool_decide (service_layer < dep_layer) then
        append_violation
          {| service := service;
             service_layer := service_layer;
             dependency := dep;
             dependency_layer := dep_layer;
             violation := violation_text service_layer dep_layer |} st
      else st
  end.

(** Body of the outer loop, lines 148-172. *)
Definition check_service (st : Run) (item : string * list string) : Run :=
  let '(service, deps) := item in
  match SERVICE_LAYERS !! service with
  | None => print (warn_service service) st
  | Some service_layer => fold_left (check_dep service service_layer) deps st
  end.

Variable DEPENDENCIES : list (string * list string).

(** Lines 143-174, run with [out] already on standard output: the value
    returned and the standard output afterwards. *)
Definition check_dependencies (out : list string)
    : list Violation * list string :=
  let st := fold_left check_service DEPENDENCIES
              {| violations := []; stdout := out |} in
  (violations st, stdout st).

End Validator.

(** ** main and the script's exit status *)

(** ["=" * 80]: a string repeated [n] times. *)
Fixpoint str_repeat (s : string) (n : nat) : string :=
  match n with
  | O => EmptyString
  | S n' => s +:+ str_repeat s n'
  end.

Definition print_all (lines : list string) (out : list string) : list string :=
  out ++ lines.

(** Lines 194-198: the block printed for the [i]-th violation. *)
Definition violation_block (i : Z) (v : Violation) : list string :=
  [ pretty i +:+ ". " +:+ service v +:+ " (第" +:+ pretty (service_layer v) +:+ "层)";
    "   -> 依赖";
    "   " +:+ dependency v +:+ " (第" +:+ pretty (dependency_layer v) +:+ "层)";
    "   WARNING: 违规：" +:+ violation v;
    EmptyString ].

(** [enumerate(violations, 1)] with the loop body of lines 193-198. *)
Definition violation_blocks (vs : list Violation) : list string :=
  concat (imap (fun i v => violation_block (Z.of_nat i + 1) v) vs).

Section Script.

Variable SERVICE_LAYERS : gmap string Z.
Variable DEPENDENCIES : list (string * list string).

(** Lines 176-201: the value returned, [len(violations)], and the
    standard output afterwards. *)
Definition main (out : list string) : Z * list string :=
  let out := print_all
    [ str_repeat "=" 80;
      "检查架构分层违规：反向依赖（下层→上层）";
      str_repeat "=" 80;
      EmptyString ] out in
  let '(violations, out) :=
    check_dependencies SERVICE_LAYERS DEPENDENCIES out in
  let out :=
    match violations with
    | [] =>
        print_all
          [ "OK - 未发现反向依赖违规！所有服务都符合架构分层原则。";
            EmptyString;
            "依赖方向检查通过：";
            "   - 所有服务只依赖同层或更低层的服务";
            "   - 没有下层服务依赖上层服务的情况" ] out
    | _ :: _ =>
        print_all
          ([ "ERROR - 发现 " +:+ pretty (Z.of_nat (length violations))
               +:+ " 个反向依赖违规：";
             EmptyString ] ++ violation_blocks violations) out
    end in
  let out := print_all [ str_repeat "=" 80 ] out in
  (Z.of_nat (length violations), out).

(** Lines 203-205: the status passed to [exit], and what was printed. *)
Definition script : Z * list string :=
  let '(violations_count, out) := main [] in
  (if bool_decide (violations_count = 0) then 0 else 1, out).

Definition exit_code : Z := script.1.

End Script.

(** ** The model shipped in the source *)

Module Shipped.

(** The table of lines 8-80. *)
Definition SERVICE_LAYERS : gmap string Z :=
  dict_literal [
    ("eventBus", 2);
    ("stateManager", 2);
    ("scrollStrategyManager", 3);
    ("entryAnimationStrategyManager", 3);
    ("fileProcessStrategyManager", 3);
    ("transitionFragmentPool", 3);
    ("canvasRenderService", 5);
    ("viewportCalculatorService", 5);
    ("ppiExtractorService", 5);
    ("keyboardService", 6);
    ("fileSaveService", 6);
    ("messageService", 6);
    ("loadingService", 6);
    ("positionSliderService", 6);
    ("customSelectFactory", 7);
    ("cardBoundaryEditorFactory", 7);
    ("colorPickerFactory", 7);
    ("boundaryEditorManagerFactory", 7);
    ("entryAnimationHelpDialogsFactory", 7);
    ("previewManagerFactory", 10);
    ("validationService", 9);
    ("stateWatcherService", 9);
    ("errorDisplayService", 9);
    ("dialogService", 9);
    ("tooltipService", 9);
    ("imageProcessingService", 10);
    ("scrollAnimationService", 10);
    ("entryAnimationService", 10);
    ("performanceMonitorService", 10);
    ("durationSequenceService", 10);
    ("loopConfigurationService", 10);
    ("positionPreviewService", 10);
    ("imageService", 11);
    ("configService", 11);
    ("playbackCoordinatorService", 11);
    ("scrollService", 11);
    ("businessOrchestrationService", 11);
    ("aboutModalService", 12);
    ("advancedLoopService", 12);
    ("imageInfoModalService", 12);
    ("colorPickerModalService", 12);
    ("positionSelectorService", 12);
    ("fileOperationUIService", 12);
    ("parameterControlUIService", 12);
    ("playbackControlUIService", 12);
    ("progressBarService", 12);
    ("sidebarService", 12);
    ("displayCoordinatorService", 12);
    ("PlaybackUIDisablerService", 12);
    ("bubbleMenuService", 12);
    ("entryAnimationConfigPage", 12);
    ("performanceReportPage", 12)
  ].

(** The table of lines 83-141, as the list [DEPENDENCIES.items()]. *)
Definition DEPENDENCIES : list (string * list string) := [
  ("scrollStrategyManager", []);
  ("fileProcessStrategyManager", []);
  ("entryAnimationStrategyManager", []);
  ("transitionFragmentPool", []);
  ("customSelectFactory",
     ["stateManager"; "keyboardService"]);
  ("fileSaveService", []);
  ("keyboardService", []);
  ("ppiExtractorService", []);
  ("canvasRenderService", []);
  ("viewportCalculatorService", []);
  ("imageProcessingService",
     ["stateManager"]);
  ("loopConfigurationService",
     ["stateManager"; "eventBus"]);
  ("durationSequenceService",
     ["stateManager"; "eventBus"]);
  ("performanceMonitorService",
     ["stateManager"; "eventBus"]);
  ("scrollAnimationService",
     ["eventBus"; "stateManager"; "scrollStrategyManager";
      "performanceMonitorService"]);
  ("entryAnimationService",
     ["eventBus"; "stateManager"; "entryAnimationStrategyManager";
      "canvasRenderService"; "validationService";
      "performanceMonitorService"]);
  ("imageService",
     ["eventBus"; "stateManager"; "fileProcessStrategyManager";
      "imageProcessingService"]);
  ("playbackCoordinatorService",
     ["eventBus"; "stateManager"; "entryAnimationService";
      "scrollAnimationService"; "durationSequenceService";
      "viewportCalculatorService"; "canvasRenderService";
      "performanceMonitorService"]);
  ("scrollService",
     ["eventBus"; "stateManager"; "playbackCoordinatorService"]);
  ("configService",
     ["eventBus"; "stateManager"; "imageService"; "scrollService";
      "fileSaveService"; "ppiExtractorService";
      "fileProcessStrategyManager"]);
  ("loadingService",
     ["eventBus"]);
  ("dialogService",
     ["keyboardService"; "stateManager"]);
  ("messageService",
     ["stateManager"]);
  ("validationService",
     ["stateManager"; "fileProcessStrategyManager";
      "scrollStrategyManager"]);
  ("errorDisplayService",
     ["eventBus"; "dialogService"; "messageService"]);
  ("stateWatcherService",
     ["stateManager"; "eventBus"]);
  ("businessOrchestrationService",
     ["eventBus"; "stateManager"; "imageService"; "scrollService";
      "validationService"]);
  ("tooltipService", []);
  ("progressBarService",
     ["eventBus"; "stateManager"; "stateWatcherService"]);
  ("positionPreviewService",
     ["stateManager"]);
  ("positionSliderService",
     ["stateManager"]);
  ("positionSelectorService",
     ["eventBus"; "validationService"; "keyboardService";
      "stateManager"; "positionPreviewService";
      "positionSliderService"; "stateWatcherService"]);
  ("advancedLoopService",
     ["keyboardService"; "stateManager"; "loopConfigurationService";
      "durationSequenceService"; "displayCoordinatorService";
      "stateWatcherService"; "customSelectFactory"]);
  ("aboutModalService",
     ["keyboardService"; "stateManager"; "eventBus"]);
  ("imageInfoModalService",
     ["ppiExtractorService"; "eventBus"; "keyboardService";
      "stateManager"]);
  ("colorPickerFactory",
     ["stateManager"; "keyboardService"; "eventBus"]);
  ("colorPickerModalService",
     ["keyboardService"; "eventBus"; "stateManager";
      "validationService"; "colorPickerFactory"]);
  ("sidebarService",
     ["eventBus"; "keyboardService"; "stateManager";
      "stateWatcherService"]);
  ("fileOperationUIService",
     ["eventBus"; "stateManager"; "fileProcessStrategyManager"]);
  ("playbackControlUIService",
     ["eventBus"; "stateManager"; "scrollService";
      "validationService"; "keyboardService"]);
  ("parameterControlUIService",
     ["eventBus"; "stateManager"; "stateWatcherService";
      "scrollStrategyManager"; "customSelectFactory";
      "colorPickerModalService"]);
  ("PlaybackUIDisablerService",
     ["stateManager"; "stateWatcherService"]);
  ("displayCoordinatorService",
     ["eventBus"; "stateManager"; "stateWatcherService";
      "canvasRenderService"]);
  ("cardBoundaryEditorFactory",
     ["stateManager"; "keyboardService";
      "viewportCalculatorService"]);
  ("previewManagerFactory",
     ["entryAnimationService"; "viewportCalculatorService"]);
  ("boundaryEditorManagerFactory",
     ["cardBoundaryEditorFactory"]);
  ("entryAnimationHelpDialogsFactory",
     ["viewportCalculatorService"]);
  ("entryAnimationConfigPage",
     ["stateManager"; "customSelectFactory"; "eventBus";
      "validationService"; "previewManagerFactory";
      "boundaryEditorManagerFactory";
      "entryAnimationHelpDialogsFactory"]);
  ("performanceReportPage",
     ["stateManager"; "eventBus"; "validationService";
      "ppiExtractorService"; "transitionFragmentPool"]);
  ("bubbleMenuService",
     ["eventBus"; "stateManager"; "keyboardService"])
].

End Shipped.

(** ** Findings in discovery order

    The declared edges, read off the dependency table from top to bottom
    and from left to right, and what one edge contributes to the two
    sequences. Nothing here removes, merges or reorders edges. *)

Definition declared_edges (D : list (string * list string))
    : list (string * string) :=
  D ≫= fun item => pair item.1 <$> item.2.

Section Findings.

Variable SERVICE_LAYERS : gmap string Z.

(** The record appended for the dependency [dep] of a service whose
    layer is [service_layer], if any (lines 162-172). *)
Definition dep_record (service : string) (service_layer : Z)
    (dep : string) : option Violation :=
  match SERVICE_LAYERS !! dep with
  | Some dep_layer =>
      if bool_decide (service_layer < dep_layer) then
        Some (mkViolation service service_layer dep dep_layer
                (violation_text service_layer dep_layer))
      else None
  | None => None
  end.

(** The line printed for the dependency [dep], if any (lines 155-160). *)
Definition dep_warning (dep : string) : option string :=
  match SERVICE_LAYERS !! dep with
  | Some _ => None
  | None =>
      if bool_decide (dep ∈ always_allowed) then None
      else Some (warn_dep dep)
  end.

(** The record appended for one declared edge, if any. *)
Definition edge_record (e : string * string) : option Violation :=
  SERVICE_LAYERS !! e.1 ≫= fun service_layer =>
    dep_record e.1 service_layer e.2.

(** The lines printed while one item of the table is processed. *)
Definition service_warnings (item : string * list string) : list string :=
  match SERVICE_LAYERS !! item.1 with
  | None => [warn_service item.1]
  | Some _ => omap dep_warning item.2
  end.

Definition violations_in_discovery_order
    (D : list (string * list string)) : list Violation :=
  omap edge_record (declared_edges D).

Definition warnings_in_discovery_order
    (D : list (string * list string)) : list string :=
  D ≫= service_warnings.

(** The edges that leave no trace in either sequence: the source is
    missing from the layer map, or the target is an always-allowed name
    missing from it, or the target's layer is not above the source's. *)
Definition edge_silent (service dep : string) : Prop :=
  match SERVICE_LAYERS !! service with
  | None => True
  | Some service_layer =>
      match SERVICE_LAYERS !! dep with
      | None => dep ∈ always_allowed
      | Some dep_layer => (dep_layer ≤ service_layer)%Z
      end
  end.

End Findings.

(** ** Renumbered layers *)

(** A record whose two layers, and the text made of them, are renumbered
    by [f]. *)
Definition renumber (f : Z → Z) (v : Violation) : Violation :=
  {| service := service v;
     service_layer := f (service_layer v);
     dependency := dependency v;
     dependency_layer := f (dependency_layer v);
     violation :=
       violation_text (f (service_layer v)) (f (dependency_layer v)) |}.

(** ** One edge on its own *)

(** What the body of the inner loop finds for the dependency [dep] of a
    listed service when it starts with nothing appended and nothing
    printed. *)
Definition edge_finding (SERVICE_LAYERS : gmap string Z)
    (service : string) (service_layer : Z) (dep : string) : Run :=
  check_dep SERVICE_LAYERS service service_layer
    {| violations := []; stdout := [] |} dep.

(** ** The state a run works in

    The same function once more, this time with everything a call can
    reach kept in one state that is handed from one call to the next: the
    two module-level dicts, the list objects created so far, and the
    standard output. A list object is known by its position in [heap];
    [violations = []] (line 145) creates a new one, [violations.append]
    (line 166) changes the one the local name refers to, and
    [return violations] hands back that reference. The globals are read
    where the source names them, so a statement that changed a table or
    reused a list would show here. *)

Module Objects.

Record World := mkWorld {
  SERVICE_LAYERS : gmap string Z;
  DEPENDENCIES : list (string * list string);
  heap : list (list Violation);
  stdout : list string
}.

Definition print (line : string) (w : World) : World :=
  {| SERVICE_LAYERS := SERVICE_LAYERS w;
     DEPENDENCIES := DEPENDENCIES w;
     heap := heap w;
     stdout := stdout w ++ [line] |}.

(** [[]]: a new, empty list object; its reference and the new state. *)
Definition new_list (w : World) : nat * World :=
  (length (heap w),
   {| SERVICE_LAYERS := SERVICE_LAYERS w;
      DEPENDENCIES := DEPENDENCIES w;
      heap := heap w ++ [[]];
      stdout := stdout w |}).

(** [l.append(v)] for the list object referred to by [l]. *)
Definition list_append (l : nat) (v : Violation) (w : World) : World :=
  {| SERVICE_LAYERS := SERVICE_LAYERS w;
     DEPENDENCIES := DEPENDENCIES w;
     heap := alter (fun content => content ++ [v]) l (heap w);
     stdout := stdout w |}.

(** Body of the inner loop, lines 155-172. *)
Definition check_dep (violations : nat) (service : string)
    (service_layer : Z) (w : World) (dep : string) : World :=
  match SERVICE_LAYERS w !! dep with
  | None =>
      if bool_decide (dep ∈ always_allowed) then w
      else print (warn_dep dep) w
  | Some dep_layer =>
      if bool_decide (service_layer < dep_layer) then
        list_append violations
          {| service := service;
             service_layer := service_layer;
             dependency := dep;
             dependency_layer := dep_layer;
             violation := violation_text service_layer dep_layer |} w
      else w
  end.

(** Body of the outer loop, lines 148-172. *)
Definition check_service (violations : nat) (w : World)
    (item : string * list string) : World :=
  let '(service, deps) := item in
  match SERVICE_LAYERS w !! service with
  | None => print (warn_service service) w
  | Some service_layer =>
      fold_left (check_dep violations service service_layer) deps w
  end.

(** Lines 143-174: the reference returned and the state afterwards. *)
Definition check_dependencies (w : World) : nat * World :=
  let '(violations, w) := new_list w in
  (violations,
   fold_left (check_service violations) (DEPENDENCIES w) w).

End Objects.

End LayerCheck.

Import LayerCheck.

(** * Properties *)

(** ** The loops, unfolded *)

Section Unfold.

Context (L : gmap string Z).

Lemma check_dep_unfold s ls st d :
  check_dep L s ls st d =
    mkRun (violations st ++ option_list (dep_record L s ls d))
          (stdout st ++ option_list (dep_warning L d)).
Proof.
  destruct st as [vs out].
  unfold check_dep, dep_record, dep_warning, print, append_violation.
  destruct (L !! d) as [ld|]; simpl.
  - case_bool_decide; simpl; by rewrite !app_nil_r.
  - case_bool_decide; simpl; by rewrite !app_nil_r.
Qed.

Lemma check_deps_unfold s ls ds st :
  fold_left (check_dep L s ls) ds st =
    mkRun (violations st ++ omap (dep_record L s ls) ds)
          (stdout st ++ omap (dep_warning L) ds).
Proof.
  revert st. induction ds as [|d ds IH]; intros st.
  - destruct st; simpl. by rewrite !app_nil_r.
  - cbn [fold_left]. rewrite IH, check_dep_unfold. simpl.
    rewrite <- !app_assoc. f_equal.
    + f_equal. by destruct (dep_record L s ls d).
    + f_equal. by destruct (dep_warning L d).
Qed.

Lemma omap_edge_record s ls (ds : list string) :
  L !! s = Some ls ->
  omap (edge_record L) (pair s <$> ds) = omap (dep_record L s ls) ds.
Proof.
  intros Hs. induction ds as [|d ds IH]; [done|].
  cbn. unfold edge_record at 1. simpl. rewrite Hs. simpl.
  by rewrite IH.
Qed.

Lemma omap_edge_record_unknown s (ds : list string) :
  L !! s = None -> omap (edge_record L) (pair s <$> ds) = [].
Proof.
  intros Hs. induction ds as [|d ds IH]; [done|].
  cbn. unfold edge_record at 1. simpl. rewrite Hs. simpl. exact IH.
Qed.

Lemma check_service_unfold st s ds :
  check_service L st (s, ds) =
    mkRun (violations st ++ omap (edge_record L) (pair s <$> ds))
          (stdout st ++ service_warnings L (s, ds)).
Proof.
  unfold check_service, service_warnings. simpl.
  destruct (L !! s) as [ls|] eqn:Hs.
  - by rewrite check_deps_unfold, (omap_edge_record s ls).
  - rewrite omap_edge_record_unknown by done.
    destruct st; unfold print; simpl. by rewrite app_nil_r.
Qed.

Lemma check_services_unfold D st :
  fold_left (check_service L) D st =
    mkRun (violations st ++ violations_in_discovery_order L D)
          (stdout st ++ warnings_in_discovery_order L D).
Proof.
  unfold violations_in_discovery_order, warnings_in_discovery_order,
    declared_edges.
  revert st. induction D as [|[s ds] D IH]; intros st.
  - destruct st; simpl. by rewrite !app_nil_r.
  - cbn [fold_left]. rewrite IH, check_service_unfold.
    rewrite !bind_cons, omap_app. cbn [violations stdout fst snd].
    by rewrite <- !app_assoc.
Qed.

Lemma check_dependencies_unfold D out :
  check_dependencies L D out =
    (violations_in_discovery_order L D,
     out ++ warnings_in_discovery_order L D).
Proof.
  unfold check_dependencies. by rewrite check_services_unfold.
Qed.

End Unfold.

(** ** Membership in the two sequences *)

Section Membership.

Context (L : gmap string Z).

Lemma elem_of_declared_edges (D : list (string * list string)) s d :
  (s, d) ∈ declared_edges D ↔ ∃ ds, (s, ds) ∈ D ∧ d ∈ ds.
Proof.
  unfold declared_edges. rewrite list_elem_of_bind. split.
  - intros ([s' ds] & Hin & HD). simpl in Hin.
    apply list_elem_of_fmap in Hin as (d' & [= -> ->] & Hd). eauto.
  - intros (ds & HD & Hd). exists (s, ds). split; [|done].
    simpl. by apply list_elem_of_fmap_2.
Qed.

Lemma edge_record_Some s d v :
  edge_record L (s, d) = Some v ↔
  ∃ ls ld, L !! s = Some ls ∧ L !! d = Some ld ∧ ls < ld ∧
           v = mkViolation s ls d ld (violation_text ls ld).
Proof.
  unfold edge_record, dep_record. simpl. split.
  - destruct (L !! s) as [ls|]; [simpl|done].
    destruct (L !! d) as [ld|]; [|done].
    case_bool_decide; [|done]. intros [= <-]. by exists ls, ld.
  - intros (ls & ld & -> & -> & Hlt & ->). simpl.
    by rewrite bool_decide_eq_true_2.
Qed.

Lemma elem_of_violations (D : list (string * list string)) v :
  v ∈ violations_in_discovery_order L D ↔
  ∃ s ds d ls ld,
    (s, ds) ∈ D ∧ d ∈ ds ∧ L !! s = Some ls ∧ L !! d = Some ld ∧
    ls < ld ∧ v = mkViolation s ls d ld (violation_text ls ld).
Proof.
  unfold violations_in_discovery_order. rewrite list_elem_of_omap. split.
  - intros ([s d] & He & Hv).
    apply elem_of_declared_edges in He as (ds & HD & Hd).
    apply edge_record_Some in Hv as (ls & ld & ? & ? & ? & ?).
    by exists s, ds, d, ls, ld.
  - intros (s & ds & d & ls & ld & HD & Hd & Hs & Hl & Hlt & ->).
    exists (s, d). split.
    + apply elem_of_declared_edges. eauto.
    + apply edge_record_Some. by exists ls, ld.
Qed.

End Membership.

(** ** C1: upward edges, and only those, are reported *)

(** C1. For a source [s] and a dependency [d] of [s] that are both keys of
    the layer map, [d] not being one of the two always-allowed names, some
    violation for the edge [(s, d)] is returned exactly when
    [layer s < layer d]; a same-layer or downward edge yields none; and
    every record returned for the edge carries [s], [layer s], [d] and
    [layer d]. *)
Theorem C1_violation_iff_upward
    (L : gmap string Z) (D : list (string * list string))
    (out : list string) (s : string) (ds : list string) (d : string)
    (ls ld : Z) :
  (s, ds) ∈ D → d ∈ ds →
  L !! s = Some ls → L !! d = Some ld →
  d ∉ always_allowed →
  ((∃ v, v ∈ (check_dependencies L D out).1 ∧
         service v = s ∧ dependency v = d) ↔ ls < ld) ∧
  (ls = ld ∨ ls > ld →
     ∀ v, v ∈ (check_dependencies L D out).1 →
          ¬ (service v = s ∧ dependency v = d)) ∧
  (∀ v, v ∈ (check_dependencies L D out).1 →
        service v = s → dependency v = d →
        service_layer v = ls ∧ dependency_layer v = ld).
Proof.
  intros HD Hd Hs Hl _. rewrite check_dependencies_unfold. cbn [fst].
  assert (Hcarry : ∀ v, v ∈ violations_in_discovery_order L D →
            service v = s → dependency v = d →
            ls < ld ∧ service_layer v = ls ∧ dependency_layer v = ld).
  { intros v Hv Hvs Hvd.
    apply elem_of_violations in Hv
      as (s' & ds' & d' & ls' & ld' & _ & _ & Hs' & Hl' & Hlt & ->).
    simpl in *. subst s' d'.
    rewrite Hs in Hs'. rewrite Hl in Hl'.
    injection Hs' as <-. injection Hl' as <-. done. }
  split; [split|split].
  - intros (v & Hv & Hvs & Hvd). by destruct (Hcarry v Hv Hvs Hvd).
  - intros Hlt. exists (mkViolation s ls d ld (violation_text ls ld)).
    split; [|done]. apply elem_of_violations. by exists s, ds, d, ls, ld.
  - intros Hge v Hv [Hvs Hvd]. destruct (Hcarry v Hv Hvs Hvd). lia.
  - intros v Hv Hvs Hvd. by destruct (Hcarry v Hv Hvs Hvd) as (_ & ? & ?).
Qed.

Lemma C1_violation_iff_upward_witness :
  ((∃ v, v ∈ (check_dependencies (dict_literal [("A", 1); ("B", 2)])
                 [("A", ["B"])] []).1 ∧
         service v = "A" ∧ dependency v = "B") ↔ 1 < 2) ∧
  (1 = 2 ∨ 1 > 2 →
     ∀ v, v ∈ (check_dependencies (dict_literal [("A", 1); ("B", 2)])
                 [("A", ["B"])] []).1 →
          ¬ (service v = "A" ∧ dependency v = "B")) ∧
  (∀ v, v ∈ (check_dependencies (dict_literal [("A", 1); ("B", 2)])
               [("A", ["B"])] []).1 →
        service v = "A" → dependency v = "B" →
        service_layer v = 1 ∧ dependency_layer v = 2).
Proof.
  apply (C1_violation_iff_upward
           (dict_literal [("A", 1); ("B", 2)]) [("A", ["B"])] []
           "A" ["B"] "B" 1 2).
  - apply list_elem_of_here.
  - apply list_elem_of_here.
  - reflexivity.
  - reflexivity.
  - apply (bool_decide_eq_false_1 _). vm_compute. reflexivity.
Defined.

(** The specification's first example: [A] in layer 1 depends on [B] in
    layer 2. *)
Example upward_edge_reported :
  check_dependencies (dict_literal [("A", 1); ("B", 2)]) [("A", ["B"])] [] =
    ([mkViolation "A" 1 "B" 2 "第1层 → 第2层"], []).
Proof. vm_compute. reflexivity. Qed.

(** The specification's second example: a downward edge. *)
Example downward_edge_silent :
  check_dependencies (dict_literal [("A", 2); ("B", 1)]) [("A", ["B"])] [] =
    ([], []).
Proof. vm_compute. reflexivity. Qed.

(** ** C2: the two always-allowed names *)

(** An always-allowed name that is not a key of the layer map is passed
    over in silence: no record, no line. *)
Lemma check_dep_always_allowed_unlisted
    (L : gmap string Z) (s : string) (ls : Z) (st : Run) (d : string) :
  d ∈ always_allowed → L !! d = None → check_dep L s ls st d = st.
Proof.
  intros Hd Hl. unfold check_dep. rewrite Hl.
  by rewrite bool_decide_eq_true_2.
Qed.

(** An always-allowed name that is a key of the layer map never reaches the
    test of line 157: it is compared like any other dependency. *)
Lemma check_dep_always_allowed_listed
    (L : gmap string Z) (s : string) (ls ld : Z) (st : Run) (d : string) :
  d ∈ always_allowed → L !! d = Some ld → ls < ld →
  check_dep L s ls st d =
    append_violation (mkViolation s ls d ld (violation_text ls ld)) st.
Proof.
  intros _ Hl Hlt. unfold check_dep. rewrite Hl.
  by rewrite bool_decide_eq_true_2.
Qed.

(** C2. The claim is that an edge whose target is [eventBus] or
    [stateManager] is never reported, whether or not the target is a key of
    the layer map. The code tests the name only after the target was found
    missing from the map: with [A] in layer 1 and [eventBus] listed in
    layer 2, the edge from [A] to [eventBus] is returned as a violation. *)
Theorem C2_listed_foundation_edge_reported :
  "eventBus" ∈ always_allowed ∧
  check_dependencies (dict_literal [("A", 1); ("eventBus", 2)])
      [("A", ["eventBus"])] [] =
    ([mkViolation "A" 1 "eventBus" 2 "第1层 → 第2层"], []).
Proof. split; [apply list_elem_of_here | vm_compute; reflexivity]. Qed.

(** The specification's third example holds: the target is unlisted. *)
Example unlisted_foundation_edge_silent :
  check_dependencies (dict_literal [("A", 1)]) [("A", ["eventBus"])] [] =
    ([], []).
Proof. vm_compute. reflexivity. Qed.

(** ** C3: the exit status *)

Lemma main_returns_count
    (L : gmap string Z) (D : list (string * list string))
    (out : list string) :
  (main L D out).1 = Z.of_nat (length (violations_in_discovery_order L D)).
Proof.
  unfold main. rewrite check_dependencies_unfold.
  by destruct (violations_in_discovery_order L D).
Qed.

Lemma exit_code_unfold
    (L : gmap string Z) (D : list (string * list string)) :
  exit_code L D =
    if bool_decide (violations_in_discovery_order L D = []) then 0 else 1.
Proof.
  unfold exit_code, script.
  pose proof (main_returns_count L D []) as Hn.
  destruct (main L D []) as [n lines]. simpl in *. subst n.
  destruct (violations_in_discovery_order L D) as [|v vs]; [done|].
  rewrite (bool_decide_eq_false_2 (_ :: _ = [])) by done.
  rewrite (bool_decide_eq_false_2 (Z.of_nat _ = 0)); [done|].
  cbn [length]. lia.
Qed.

(** C3. The status passed to [exit] is 0 exactly when the sequence returned
    by [check_dependencies] is empty and 1 exactly when it is not; the
    lines printed by [check_dependencies] (the warnings) play no part: two
    models with the same returned sequence exit with the same status
    whatever they print. *)
Theorem C3_exit_code_iff_no_violation
    (L : gmap string Z) (D : list (string * list string))
    (out : list string) :
  (exit_code L D = 0 ↔ (check_dependencies L D out).1 = []) ∧
  (exit_code L D = 1 ↔ (check_dependencies L D out).1 ≠ []) ∧
  (∀ (L' : gmap string Z) (D' : list (string * list string))
     (out' : list string),
     (check_dependencies L' D' out').1 = (check_dependencies L D out).1 →
     exit_code L' D' = exit_code L D).
Proof.
  rewrite exit_code_unfold, check_dependencies_unfold. cbn [fst].
  split; [|split].
  - case_bool_decide; naive_solver.
  - case_bool_decide; naive_solver.
  - intros L' D' out'.
    rewrite exit_code_unfold, check_dependencies_unfold. cbn [fst].
    by intros ->.
Qed.

(** A model with two warnings and no violation exits with status 0. *)
Example warnings_only_exit_0 :
  check_dependencies (dict_literal [("A", 1)]) [("A", ["Z"]); ("B", [])] [] =
    ([], ["⚠️  警告: 依赖 Z 不在层级映射中"; "⚠️  警告: B 不在层级映射中"]) ∧
  exit_code (dict_literal [("A", 1)]) [("A", ["Z"]); ("B", [])] = 0.
Proof. split; vm_compute; reflexivity. Qed.

(** ** Splitting the table *)

Section Split.

Context (L : gmap string Z).

Lemma violations_app (D1 D2 : list (string * list string)) :
  violations_in_discovery_order L (D1 ++ D2) =
    violations_in_discovery_order L D1 ++
    violations_in_discovery_order L D2.
Proof.
  unfold violations_in_discovery_order, declared_edges.
  by rewrite bind_app, omap_app.
Qed.

Lemma violations_cons s ds (D : list (string * list string)) :
  violations_in_discovery_order L ((s, ds) :: D) =
    omap (edge_record L) (pair s <$> ds) ++
    violations_in_discovery_order L D.
Proof.
  unfold violations_in_discovery_order, declared_edges.
  by rewrite bind_cons, omap_app.
Qed.

Lemma warnings_app (D1 D2 : list (string * list string)) :
  warnings_in_discovery_order L (D1 ++ D2) =
    warnings_in_discovery_order L D1 ++ warnings_in_discovery_order L D2.
Proof. unfold warnings_in_discovery_order. by rewrite bind_app. Qed.

Lemma warnings_cons item (D : list (string * list string)) :
  warnings_in_discovery_order L (item :: D) =
    service_warnings L item ++ warnings_in_discovery_order L D.
Proof. unfold warnings_in_discovery_order. by rewrite bind_cons. Qed.

Lemma service_warnings_known s ls (ds : list string) :
  L !! s = Some ls →
  service_warnings L (s, ds) = omap (dep_warning L) ds.
Proof. intros Hs. unfold service_warnings. simpl. by rewrite Hs. Qed.

End Split.

(** ** C4: a dependency missing from the layer map *)

(** C4. Let [s] be a key of the layer map and [d] a dependency of [s] that
    is neither a key of the layer map nor always allowed. Processing the
    edge prints one line naming [d] and appends no record; the run then
    goes on: the sequence returned is the one returned for the model
    without this edge, the output is the output for that model with the
    one line inserted, and every upward edge of the model is still
    returned. *)
Theorem C4_unknown_dependency_warned_once
    (L : gmap string Z) (D1 D2 : list (string * list string))
    (s : string) (ls : Z) (ds1 ds2 : list string) (d : string)
    (out : list string) (st : Run) :
  L !! s = Some ls → L !! d = None → d ∉ always_allowed →
  (violations (check_dep L s ls st d) = violations st ∧
   stdout (check_dep L s ls st d) = stdout st ++ [warn_dep d]) ∧
  (check_dependencies L (D1 ++ (s, ds1 ++ d :: ds2) :: D2) out).1 =
    (check_dependencies L (D1 ++ (s, ds1 ++ ds2) :: D2) out).1 ∧
  (∃ before after,
     (check_dependencies L (D1 ++ (s, ds1 ++ ds2) :: D2) out).2 =
       out ++ before ++ after ∧
     (check_dependencies L (D1 ++ (s, ds1 ++ d :: ds2) :: D2) out).2 =
       out ++ before ++ warn_dep d :: after) ∧
  (∀ s' ds' d' ls' ld',
     (s', ds') ∈ D1 ++ (s, ds1 ++ d :: ds2) :: D2 → d' ∈ ds' →
     L !! s' = Some ls' → L !! d' = Some ld' → ls' < ld' →
     mkViolation s' ls' d' ld' (violation_text ls' ld') ∈
       (check_dependencies L (D1 ++ (s, ds1 ++ d :: ds2) :: D2) out).1).
Proof.
  intros Hs Hd Hna.
  assert (Hrec : dep_record L s ls d = None).
  { unfold dep_record. by rewrite Hd. }
  assert (Hwarn : dep_warning L d = Some (warn_dep d)).
  { unfold dep_warning. rewrite Hd. by rewrite bool_decide_eq_false_2. }
  split; [|split; [|split]].
  - rewrite check_dep_unfold, Hrec, Hwarn. simpl. by rewrite app_nil_r.
  - rewrite !check_dependencies_unfold. cbn [fst].
    rewrite !violations_app, !violations_cons.
    rewrite !(omap_edge_record L s ls) by done.
    rewrite !omap_app. cbn [omap list_omap]. by rewrite Hrec.
  - exists (warnings_in_discovery_order L D1 ++ omap (dep_warning L) ds1),
           (omap (dep_warning L) ds2 ++ warnings_in_discovery_order L D2).
    rewrite !check_dependencies_unfold. cbn [snd].
    rewrite !warnings_app, !warnings_cons.
    rewrite !(service_warnings_known L s ls) by done.
    rewrite !omap_app. cbn [omap list_omap]. rewrite Hwarn.
    split; by rewrite <- ?app_assoc.
  - intros s' ds' d' ls' ld' HD' Hd' Hs' Hl' Hlt.
    rewrite check_dependencies_unfold. cbn [fst].
    apply elem_of_violations. by exists s', ds', d', ls', ld'.
Qed.

Lemma C4_unknown_dependency_warned_once_witness :
  check_dependencies (dict_literal [("A", 1); ("B", 2)])
    ([] ++ ("A", [] ++ "Z" :: ["B"]) :: []) [] =
  ([mkViolation "A" 1 "B" 2 "第1层 → 第2层"],
   ["⚠️  警告: 依赖 Z 不在层级映射中"]) ∧
  (check_dependencies (dict_literal [("A", 1); ("B", 2)])
     ([] ++ ("A", [] ++ "Z" :: ["B"]) :: []) []).1 =
  (check_dependencies (dict_literal [("A", 1); ("B", 2)])
     ([] ++ ("A", [] ++ ["B"]) :: []) []).1.
Proof.
  split; [vm_compute; reflexivity|].
  refine (proj1 (proj2 (C4_unknown_dependency_warned_once
            (dict_literal [("A", 1); ("B", 2)]) [] [] "A" 1 [] ["B"] "Z"
            [] (mkRun [] []) _ _ _))).
  - reflexivity.
  - reflexivity.
  - apply (bool_decide_eq_false_1 _). vm_compute. reflexivity.
Defined.

(** The specification's fourth example. *)
Example unknown_dependency_example :
  check_dependencies (dict_literal [("A", 1)]) [("A", ["Z"])] [] =
    ([], ["⚠️  警告: 依赖 Z 不在层级映射中"]).
Proof. vm_compute. reflexivity. Qed.

(** ** C5: a source missing from the layer map *)

(** C5. Let [s] be a key of the dependency table that is not a key of the
    layer map. Processing its item prints one line naming [s] and nothing
    else happens for it, whatever its dependencies are; the run then goes
    on: the sequence returned is the one returned for the model without
    the item, none of its records has [s] as its service, and the output
    is the output for that model with the one line inserted. *)
Theorem C5_unknown_source_skipped
    (L : gmap string Z) (D1 D2 : list (string * list string))
    (s : string) (ds : list string) (out : list string) (st : Run) :
  L !! s = None →
  (violations (check_service L st (s, ds)) = violations st ∧
   stdout (check_service L st (s, ds)) = stdout st ++ [warn_service s]) ∧
  (check_dependencies L (D1 ++ (s, ds) :: D2) out).1 =
    (check_dependencies L (D1 ++ D2) out).1 ∧
  (∀ v, v ∈ (check_dependencies L (D1 ++ (s, ds) :: D2) out).1 →
        service v ≠ s) ∧
  (∃ before after,
     (check_dependencies L (D1 ++ D2) out).2 = out ++ before ++ after ∧
     (check_dependencies L (D1 ++ (s, ds) :: D2) out).2 =
       out ++ before ++ warn_service s :: after).
Proof.
  intros Hs.
  assert (Hw : service_warnings L (s, ds) = [warn_service s]).
  { unfold service_warnings. simpl. by rewrite Hs. }
  split; [|split; [|split]].
  - rewrite check_service_unfold, Hw, omap_edge_record_unknown by done.
    simpl. by rewrite app_nil_r.
  - rewrite !check_dependencies_unfold. cbn [fst].
    rewrite !violations_app, violations_cons.
    by rewrite omap_edge_record_unknown.
  - intros v. rewrite check_dependencies_unfold. cbn [fst].
    intros Hv Hvs. apply elem_of_violations in Hv
      as (s' & ds' & d' & ls' & ld' & _ & _ & Hs' & _ & _ & ->).
    simpl in Hvs. subst s'. by rewrite Hs in Hs'.
  - exists (warnings_in_discovery_order L D1),
           (warnings_in_discovery_order L D2).
    rewrite !check_dependencies_unfold. cbn [snd].
    rewrite !warnings_app, warnings_cons, Hw. done.
Qed.

Lemma C5_unknown_source_skipped_witness :
  check_dependencies (dict_literal [("A", 1); ("B", 2)])
    ([] ++ ("X", ["B"; "Z"]) :: [("A", ["B"])]) [] =
  ([mkViolation "A" 1 "B" 2 "第1层 → 第2层"],
   ["⚠️  警告: X 不在层级映射中"]) ∧
  (check_dependencies (dict_literal [("A", 1); ("B", 2)])
     ([] ++ ("X", ["B"; "Z"]) :: [("A", ["B"])]) []).1 =
  (check_dependencies (dict_literal [("A", 1); ("B", 2)])
     ([] ++ [("A", ["B"])]) []).1.
Proof.
  split; [vm_compute; reflexivity|].
  refine (proj1 (proj2 (C5_unknown_source_skipped
            (dict_literal [("A", 1); ("B", 2)]) [] [("A", ["B"])]
            "X" ["B"; "Z"] [] (mkRun [] []) _))).
  reflexivity.
Defined.

(** ** C6: what the caller receives *)

(** C6, as stated, fails: the value returned by [check_dependencies] is the
    list of violations alone, and the warnings cannot be read off it. The
    empty table and a table with one unknown source both return the empty
    list, yet only the second prints a warning. *)
Lemma C6_warnings_not_in_returned_value :
  ¬ ∃ warnings_of : list Violation → list string,
      ∀ (L : gmap string Z) (D : list (string * list string)),
        (check_dependencies L D []).2 =
          warnings_of (check_dependencies L D []).1.
Proof.
  intros [warnings_of H].
  pose proof (H ∅ []) as H0.
  pose proof (H ∅ [("A", [])]) as H1.
  vm_compute in H0, H1. congruence.
Qed.

(** C6, amended. [check_dependencies] returns one sequence, the violations,
    and it is complete: every upward edge between listed names has its
    record in it. The warnings are not collected: each is printed, and the
    output of the run is the earlier output followed by the warning lines
    in discovery order. The callers use the returned sequence only: [main]
    returns its length and the script exits with 0 or 1 according to
    that length. *)
Theorem C6_violations_returned_warnings_printed
    (L : gmap string Z) (D : list (string * list string))
    (out : list string) :
  (∀ s ds d ls ld,
     (s, ds) ∈ D → d ∈ ds →
     L !! s = Some ls → L !! d = Some ld → ls < ld →
     mkViolation s ls d ld (violation_text ls ld) ∈
       (check_dependencies L D out).1) ∧
  (check_dependencies L D out).2 = out ++ warnings_in_discovery_order L D ∧
  (main L D out).1 = Z.of_nat (length (check_dependencies L D out).1) ∧
  exit_code L D =
    (if bool_decide (Z.of_nat (length (check_dependencies L D out).1) = 0)
     then 0 else 1).
Proof.
  rewrite main_returns_count, exit_code_unfold, check_dependencies_unfold.
  cbn [fst snd]. split; [|split; [|split]]; try done.
  - intros s ds d ls ld HD Hd Hs Hl Hlt.
    apply elem_of_violations. by exists s, ds, d, ls, ld.
  - destruct (violations_in_discovery_order L D) as [|v vs]; [done|].
    rewrite (bool_decide_eq_false_2 (_ :: _ = [])) by done.
    rewrite (bool_decide_eq_false_2 (Z.of_nat _ = 0)); [done|].
    cbn [length]. lia.
Qed.

(** ** C7: discovery order *)

Lemma edge_record_edge (L : gmap string Z) (e : string * string) v :
  edge_record L e = Some v → (service v, dependency v) = e.
Proof.
  destruct e as [s d]. intros Hv.
  apply edge_record_Some in Hv as (ls & ld & _ & _ & _ & ->). done.
Qed.

Lemma omap_edge_record_edges
    (L : gmap string Z) (es : list (string * string)) :
  (fun v => (service v, dependency v)) <$> omap (edge_record L) es =
    filter (fun e => is_Some (edge_record L e)) es.
Proof.
  induction es as [|e es IH]; [done|].
  cbn [omap list_omap]. rewrite filter_cons.
  destruct (edge_record L e) as [v|] eqn:He.
  - rewrite decide_True by eauto. cbn [fmap list_fmap].
    fold (omap (edge_record L) es).
    f_equal; [by apply (edge_record_edge L)|exact IH].
  - rewrite decide_False by (by intros [? ?]). exact IH.
Qed.

(** C7. The sequence returned is obtained from the declared edges, taken in
    the order of the items of the dependency table and, within an item, in
    the order of its list, by keeping the record of each edge that has one:
    the edges of the returned records are the reported edges in declaration
    order, repeated as often as they are declared, and there are as many
    records as there are such edges. *)
Theorem C7_violations_in_discovery_order
    (L : gmap string Z) (D : list (string * list string))
    (out : list string) :
  (check_dependencies L D out).1 = omap (edge_record L) (declared_edges D) ∧
  (fun v => (service v, dependency v)) <$> (check_dependencies L D out).1 =
    filter (fun e => is_Some (edge_record L e)) (declared_edges D) ∧
  length (check_dependencies L D out).1 =
    length (filter (fun e => is_Some (edge_record L e)) (declared_edges D)).
Proof.
  rewrite check_dependencies_unfold. cbn [fst].
  unfold violations_in_discovery_order.
  split; [done|]. split; [apply omap_edge_record_edges|].
  by rewrite <- omap_edge_record_edges, length_fmap.
Qed.

(** Two upward edges are returned in the order of the table, not sorted by
    name or layer, and a repeated edge is returned twice. *)
Example discovery_order_example :
  (check_dependencies (dict_literal [("Z", 1); ("A", 2); ("B", 3)])
     [("Z", ["B"; "A"; "B"]); ("A", ["B"])] []).1 =
  [ mkViolation "Z" 1 "B" 3 "第1层 → 第3层";
    mkViolation "Z" 1 "A" 2 "第1层 → 第2层";
    mkViolation "Z" 1 "B" 3 "第1层 → 第3层";
    mkViolation "A" 2 "B" 3 "第2层 → 第3层" ].
Proof. vm_compute. reflexivity. Qed.

(** ** C8: a dependency declared twice *)

(** C8, as stated, fails: the dependency lists are lists, and every
    occurrence is processed. An upward edge declared twice is returned
    twice, and an unknown dependency declared twice is warned about
    twice. *)
Lemma C8_duplicate_edge_processed_twice :
  check_dependencies (dict_literal [("A", 1); ("B", 2)])
      [("A", ["B"; "B"])] [] ≠
    check_dependencies (dict_literal [("A", 1); ("B", 2)])
      [("A", ["B"])] [] ∧
  check_dependencies (dict_literal [("A", 1)]) [("A", ["Z"; "Z"])] [] ≠
    check_dependencies (dict_literal [("A", 1)]) [("A", ["Z"])] [].
Proof. split; vm_compute; discriminate. Qed.

Lemma omap_cons_case {A B} (f : A → option B) (x : A) (l : list A) :
  omap f (x :: l) = option_list (f x) ++ omap f l.
Proof. cbn. by destruct (f x). Qed.

Lemma edge_silent_known (L : gmap string Z) (s d : string) (ls : Z) :
  L !! s = Some ls →
  edge_silent L s d ↔ dep_record L s ls d = None ∧ dep_warning L d = None.
Proof.
  intros Hs. unfold edge_silent, dep_record, dep_warning. rewrite Hs.
  destruct (L !! d) as [ld|].
  - case_bool_decide; [split; [lia|by intros [? _]]|split; [done|lia]].
  - case_bool_decide; [done|split; [done|by intros [_ ?]]].
Qed.

Lemma edge_finding_unfold (L : gmap string Z) (s : string) (ls : Z)
    (d : string) :
  violations (edge_finding L s ls d) = option_list (dep_record L s ls d) ∧
  stdout (edge_finding L s ls d) = option_list (dep_warning L d).
Proof. unfold edge_finding. by rewrite check_dep_unfold. Qed.

Lemma single_item_unfold (L : gmap string Z) (s : string) (ls : Z)
    (ds : list string) (out : list string) :
  L !! s = Some ls →
  check_dependencies L [(s, ds)] out =
    (omap (dep_record L s ls) ds, out ++ omap (dep_warning L) ds).
Proof.
  intros Hs. rewrite check_dependencies_unfold.
  rewrite violations_cons, warnings_cons.
  rewrite (omap_edge_record L s ls), (service_warnings_known L s ls) by done.
  unfold violations_in_discovery_order, warnings_in_discovery_order.
  simpl. by rewrite !app_nil_r.
Qed.

(** C8, amended. Repeated declarations are not merged: every occurrence of
    a dependency [d] in the list of [s] is processed on its own and leaves
    its own copy of what the edge yields. If [s] is missing from the layer
    map, declaring [d] once more changes nothing. If [s] is listed, the
    edge on its own yields at most one thing, a record for [(s, d)] or a
    line naming [d]; the result for the table in which [d] occurs once is
    made of the result up to [d], what the edge yields, and the result of
    the rest; the result for the table in which [d] occurs once more is the
    same with what the edge yields inserted once more, in the returned
    sequence and in the output, at the place of the further occurrence.
    So the two results are equal exactly when the edge yields nothing. *)
Theorem C8_each_occurrence_leaves_its_own_finding
    (L : gmap string Z) (D1 D2 : list (string * list string))
    (s : string) (ds1 ds2 ds3 : list string) (d : string)
    (out : list string) :
  (L !! s = None →
   check_dependencies L (D1 ++ (s, ds1 ++ d :: ds2 ++ d :: ds3) :: D2) out =
     check_dependencies L (D1 ++ (s, ds1 ++ d :: ds2 ++ ds3) :: D2) out) ∧
  (∀ ls, L !! s = Some ls →
   (length (violations (edge_finding L s ls d)) +
      length (stdout (edge_finding L s ls d)) ≤ 1)%nat ∧
   (∀ v, v ∈ violations (edge_finding L s ls d) →
         service v = s ∧ dependency v = d) ∧
   (∀ w, w ∈ stdout (edge_finding L s ls d) → w = warn_dep d) ∧
   check_dependencies L (D1 ++ (s, ds1 ++ d :: ds2 ++ ds3) :: D2) out =
     ((check_dependencies L (D1 ++ [(s, ds1)]) out).1 ++
        violations (edge_finding L s ls d) ++
        (check_dependencies L [(s, ds2)] []).1 ++
        (check_dependencies L ((s, ds3) :: D2) []).1,
      (check_dependencies L (D1 ++ [(s, ds1)]) out).2 ++
        stdout (edge_finding L s ls d) ++
        (check_dependencies L [(s, ds2)] []).2 ++
        (check_dependencies L ((s, ds3) :: D2) []).2) ∧
   check_dependencies L (D1 ++ (s, ds1 ++ d :: ds2 ++ d :: ds3) :: D2) out =
     ((check_dependencies L (D1 ++ [(s, ds1)]) out).1 ++
        violations (edge_finding L s ls d) ++
        (check_dependencies L [(s, ds2)] []).1 ++
        violations (edge_finding L s ls d) ++
        (check_dependencies L ((s, ds3) :: D2) []).1,
      (check_dependencies L (D1 ++ [(s, ds1)]) out).2 ++
        stdout (edge_finding L s ls d) ++
        (check_dependencies L [(s, ds2)] []).2 ++
        stdout (edge_finding L s ls d) ++
        (check_dependencies L ((s, ds3) :: D2) []).2) ∧
   (check_dependencies L (D1 ++ (s, ds1 ++ d :: ds2 ++ d :: ds3) :: D2) out =
      check_dependencies L (D1 ++ (s, ds1 ++ d :: ds2 ++ ds3) :: D2) out
    ↔ violations (edge_finding L s ls d) = [] ∧
      stdout (edge_finding L s ls d) = [])).
Proof.
  split.
  - intros Hs. rewrite !check_dependencies_unfold.
    rewrite !violations_app, !violations_cons, !warnings_app, !warnings_cons.
    rewrite !omap_edge_record_unknown by done.
    unfold service_warnings. simpl. by rewrite Hs.
  - intros ls Hs.
    destruct (edge_finding_unfold L s ls d) as [-> ->].
    rewrite (single_item_unfold L s ls ds2) by done.
    rewrite !(check_dependencies_unfold L (D1 ++ _)).
    rewrite !(check_dependencies_unfold L (_ :: D2)).
    rewrite !violations_app, !violations_cons, !warnings_app, !warnings_cons.
    rewrite !(omap_edge_record L s ls), !(service_warnings_known L s ls)
      by done.
    rewrite !omap_app, !omap_cons_case, !omap_app, !omap_cons_case.
    unfold violations_in_discovery_order at 2 4.
    unfold warnings_in_discovery_order at 2 4.
    cbn [fst snd declared_edges mbind list_bind omap list_omap app].
    rewrite !app_nil_r.
    split; [|split; [|split; [|split; [|split]]]].
    + unfold dep_record, dep_warning.
      destruct (L !! d); repeat case_bool_decide; simpl; lia.
    + intros v Hv. unfold dep_record in Hv.
      destruct (L !! d); [|by apply elem_of_nil in Hv].
      case_bool_decide; [|by apply elem_of_nil in Hv].
      by apply list_elem_of_singleton in Hv as ->.
    + intros w Hw. unfold dep_warning in Hw.
      destruct (L !! d); [by apply elem_of_nil in Hw|].
      case_bool_decide; [by apply elem_of_nil in Hw|].
      by apply list_elem_of_singleton in Hw.
    + f_equal; by rewrite <- ?app_assoc.
    + f_equal; by rewrite <- ?app_assoc.
    + destruct (dep_record L s ls d) as [v|]; [|destruct (dep_warning L d)].
      * split; [|by intros [? _]]. intros Heq.
        apply (f_equal (fun r => length r.1)) in Heq. cbn [fst] in Heq.
        rewrite !length_app in Heq. simpl in Heq. lia.
      * split; [|by intros [_ ?]]. intros Heq.
        apply (f_equal (fun r => length r.2)) in Heq. cbn [snd] in Heq.
        rewrite !length_app in Heq. simpl in Heq. lia.
      * done.
Qed.

Lemma C8_each_occurrence_leaves_its_own_finding_witness :
  violations (edge_finding (dict_literal [("A", 1); ("B", 2)]) "A" 1 "B") =
    [mkViolation "A" 1 "B" 2 "第1层 → 第2层"] ∧
  check_dependencies (dict_literal [("A", 1); ("B", 2)])
    ([] ++ ("A", ["Z"] ++ "B" :: ["A"] ++ "B" :: ["Z"]) :: []) [] =
  ((check_dependencies (dict_literal [("A", 1); ("B", 2)])
      ([] ++ [("A", ["Z"])]) []).1 ++
     violations (edge_finding (dict_literal [("A", 1); ("B", 2)]) "A" 1 "B") ++
     (check_dependencies (dict_literal [("A", 1); ("B", 2)])
        [("A", ["A"])] []).1 ++
     violations (edge_finding (dict_literal [("A", 1); ("B", 2)]) "A" 1 "B") ++
     (check_dependencies (dict_literal [("A", 1); ("B", 2)])
        (("A", ["Z"]) :: []) []).1,
   (check_dependencies (dict_literal [("A", 1); ("B", 2)])
      ([] ++ [("A", ["Z"])]) []).2 ++
     stdout (edge_finding (dict_literal [("A", 1); ("B", 2)]) "A" 1 "B") ++
     (check_dependencies (dict_literal [("A", 1); ("B", 2)])
        [("A", ["A"])] []).2 ++
     stdout (edge_finding (dict_literal [("A", 1); ("B", 2)]) "A" 1 "B") ++
     (check_dependencies (dict_literal [("A", 1); ("B", 2)])
        (("A", ["Z"]) :: []) []).2).
Proof.
  split; [vm_compute; reflexivity|].
  refine (proj1 (proj2 (proj2 (proj2 (proj2
    (proj2 (C8_each_occurrence_leaves_its_own_finding
              (dict_literal [("A", 1); ("B", 2)]) [] []
              "A" ["Z"] ["A"] ["Z"] "B" []) 1 _)))))).
  reflexivity.
Defined.

(** A table in which an upward edge and an unknown dependency are both
    declared twice, beside the same table with each declared once. *)
Example each_occurrence_example :
  check_dependencies (dict_literal [("A", 1); ("B", 2)])
      [("A", ["B"; "Z"; "B"; "Z"])] [] =
    ([ mkViolation "A" 1 "B" 2 "第1层 → 第2层";
       mkViolation "A" 1 "B" 2 "第1层 → 第2层" ],
     [ "⚠️  警告: 依赖 Z 不在层级映射中"; "⚠️  警告: 依赖 Z 不在层级映射中" ]) ∧
  check_dependencies (dict_literal [("A", 1); ("B", 2)])
      [("A", ["B"; "Z"])] [] =
    ([ mkViolation "A" 1 "B" 2 "第1层 → 第2层" ],
     [ "⚠️  警告: 依赖 Z 不在层级映射中" ]).
Proof. split; vm_compute; reflexivity. Qed.

(** A same-layer edge declared twice changes nothing. *)
Example duplicate_silent_edge :
  check_dependencies (dict_literal [("A", 2); ("B", 2)])
      [("A", ["B"; "B"])] [] =
    check_dependencies (dict_literal [("A", 2); ("B", 2)])
      [("A", ["B"])] [].
Proof. vm_compute. reflexivity. Qed.

(** ** C9: running twice *)

Section ObjectRuns.

Lemma alter_append_twice {A} (xs ys : list A) (l : nat)
    (h : list (list A)) :
  alter (fun c => c ++ ys) l (alter (fun c => c ++ xs) l h) =
    alter (fun c => c ++ (xs ++ ys)) l h.
Proof.
  revert l. induction h as [|c h IH]; intros [|l]; simpl; [done..| |].
  - by rewrite <- app_assoc.
  - f_equal. apply IH.
Qed.

Lemma alter_append_nil {A} (l : nat) (h : list (list A)) :
  alter (fun c => c ++ []) l h = h.
Proof. apply list_alter_id. intros c. apply app_nil_r. Qed.

Lemma objects_check_dep_unfold (l : nat) (s : string) (ls : Z)
    (w : Objects.World) (d : string) :
  Objects.check_dep l s ls w d =
    Objects.mkWorld (Objects.SERVICE_LAYERS w) (Objects.DEPENDENCIES w)
      (alter (fun c => c ++
                option_list (dep_record (Objects.SERVICE_LAYERS w) s ls d))
         l (Objects.heap w))
      (Objects.stdout w ++
         option_list (dep_warning (Objects.SERVICE_LAYERS w) d)).
Proof.
  destruct w as [L D h out].
  unfold Objects.check_dep, dep_record, dep_warning, Objects.print,
    Objects.list_append.
  cbn [Objects.SERVICE_LAYERS Objects.DEPENDENCIES Objects.heap
       Objects.stdout].
  destruct (L !! d) as [ld|]; case_bool_decide; cbn;
    by rewrite ?alter_append_nil, ?app_nil_r.
Qed.

Lemma objects_check_deps_unfold (l : nat) (s : string) (ls : Z)
    (ds : list string) (w : Objects.World) :
  fold_left (Objects.check_dep l s ls) ds w =
    Objects.mkWorld (Objects.SERVICE_LAYERS w) (Objects.DEPENDENCIES w)
      (alter (fun c => c ++
                omap (dep_record (Objects.SERVICE_LAYERS w) s ls) ds)
         l (Objects.heap w))
      (Objects.stdout w ++ omap (dep_warning (Objects.SERVICE_LAYERS w)) ds).
Proof.
  revert w. induction ds as [|d ds IH]; intros w.
  - destruct w. cbn. by rewrite alter_append_nil, app_nil_r.
  - cbn [fold_left]. rewrite IH, objects_check_dep_unfold.
    cbn [Objects.SERVICE_LAYERS Objects.DEPENDENCIES Objects.heap
         Objects.stdout].
    rewrite alter_append_twice, !omap_cons_case. by rewrite <- app_assoc.
Qed.

Lemma objects_check_service_unfold (l : nat) (w : Objects.World)
    (s : string) (ds : list string) :
  Objects.check_service l w (s, ds) =
    Objects.mkWorld (Objects.SERVICE_LAYERS w) (Objects.DEPENDENCIES w)
      (alter (fun c => c ++
                omap (edge_record (Objects.SERVICE_LAYERS w)) (pair s <$> ds))
         l (Objects.heap w))
      (Objects.stdout w ++ service_warnings (Objects.SERVICE_LAYERS w) (s, ds)).
Proof.
  unfold Objects.check_service, service_warnings. cbn [fst snd].
  destruct (Objects.SERVICE_LAYERS w !! s) as [ls|] eqn:Hs.
  - by rewrite objects_check_deps_unfold, (omap_edge_record _ s ls).
  - rewrite omap_edge_record_unknown by done.
    destruct w. unfold Objects.print. cbn. by rewrite alter_append_nil.
Qed.

Lemma objects_check_services_unfold (l : nat)
    (D : list (string * list string)) (w : Objects.World) :
  fold_left (Objects.check_service l) D w =
    Objects.mkWorld (Objects.SERVICE_LAYERS w) (Objects.DEPENDENCIES w)
      (alter (fun c => c ++
                violations_in_discovery_order (Objects.SERVICE_LAYERS w) D)
         l (Objects.heap w))
      (Objects.stdout w ++
         warnings_in_discovery_order (Objects.SERVICE_LAYERS w) D).
Proof.
  revert w. induction D as [|[s ds] D IH]; intros w.
  - destruct w. cbn. by rewrite alter_append_nil, app_nil_r.
  - cbn [fold_left]. rewrite IH, objects_check_service_unfold.
    cbn [Objects.SERVICE_LAYERS Objects.DEPENDENCIES Objects.heap
         Objects.stdout].
    rewrite alter_append_twice, violations_cons, warnings_cons.
    by rewrite <- app_assoc.
Qed.

(** A run adds one list object, holding the violations in discovery order,
    behind the list objects that were there, appends the warnings to the
    output and leaves both tables as they were. *)
Lemma objects_check_dependencies_unfold (w : Objects.World) :
  Objects.check_dependencies w =
    (length (Objects.heap w),
     Objects.mkWorld (Objects.SERVICE_LAYERS w) (Objects.DEPENDENCIES w)
       (Objects.heap w ++
          [violations_in_discovery_order (Objects.SERVICE_LAYERS w)
             (Objects.DEPENDENCIES w)])
       (Objects.stdout w ++
          warnings_in_discovery_order (Objects.SERVICE_LAYERS w)
            (Objects.DEPENDENCIES w))).
Proof.
  unfold Objects.check_dependencies, Objects.new_list.
  rewrite objects_check_services_unfold.
  cbn [Objects.SERVICE_LAYERS Objects.DEPENDENCIES Objects.heap
       Objects.stdout].
  f_equal. f_equal.
  replace (length (Objects.heap w)) with (length (Objects.heap w) + 0)%nat
    by lia.
  by rewrite alter_app_r.
Qed.

End ObjectRuns.

(** C9. Two runs give identical results. Take any state [w] (whatever was
    printed and whatever lists exist), run the function, and run it again
    in the state the first run left. The first run does not change either
    table, and neither does the second; each run returns a list object of
    its own, and the second run leaves the list of the first, like every
    earlier list, as it was; the two returned lists hold the same
    violations in the same order, and the two runs print the same warning
    lines in the same order. The same results are obtained from any other
    state that holds the same two tables, and they are the results of
    [check_dependencies] as embedded above. *)
Theorem C9_two_runs_agree
    (w w1 w2 : Objects.World) (l1 l2 : nat) :
  Objects.check_dependencies w = (l1, w1) →
  Objects.check_dependencies w1 = (l2, w2) →
  (Objects.SERVICE_LAYERS w1 = Objects.SERVICE_LAYERS w ∧
   Objects.DEPENDENCIES w1 = Objects.DEPENDENCIES w ∧
   Objects.SERVICE_LAYERS w2 = Objects.SERVICE_LAYERS w ∧
   Objects.DEPENDENCIES w2 = Objects.DEPENDENCIES w) ∧
  l1 ≠ l2 ∧
  (∀ l c, Objects.heap w !! l = Some c →
          l ≠ l1 ∧ l ≠ l2 ∧
          Objects.heap w1 !! l = Some c ∧ Objects.heap w2 !! l = Some c) ∧
  ∃ vs ws,
    Objects.heap w1 !! l1 = Some vs ∧
    Objects.heap w2 !! l1 = Some vs ∧
    Objects.heap w2 !! l2 = Some vs ∧
    Objects.stdout w1 = Objects.stdout w ++ ws ∧
    Objects.stdout w2 = Objects.stdout w1 ++ ws ∧
    (∀ w' l' w1',
       Objects.SERVICE_LAYERS w' = Objects.SERVICE_LAYERS w →
       Objects.DEPENDENCIES w' = Objects.DEPENDENCIES w →
       Objects.check_dependencies w' = (l', w1') →
       Objects.heap w1' !! l' = Some vs ∧
       Objects.stdout w1' = Objects.stdout w' ++ ws) ∧
    (∀ out,
       check_dependencies (Objects.SERVICE_LAYERS w)
         (Objects.DEPENDENCIES w) out = (vs, out ++ ws)).
Proof.
  rewrite objects_check_dependencies_unfold. intros [= <- <-].
  rewrite objects_check_dependencies_unfold.
  cbn [Objects.SERVICE_LAYERS Objects.DEPENDENCIES Objects.heap
       Objects.stdout].
  intros [= <- <-].
  cbn [Objects.SERVICE_LAYERS Objects.DEPENDENCIES Objects.heap
       Objects.stdout].
  rewrite length_app. cbn [length].
  split; [done|]. split; [lia|]. split.
  - intros l c Hl. pose proof (lookup_lt_Some _ _ _ Hl) as Hlt.
    split; [lia|]. split; [lia|].
    split; [by apply lookup_app_l_Some|].
    by apply lookup_app_l_Some, lookup_app_l_Some.
  - exists (violations_in_discovery_order (Objects.SERVICE_LAYERS w)
              (Objects.DEPENDENCIES w)),
           (warnings_in_discovery_order (Objects.SERVICE_LAYERS w)
              (Objects.DEPENDENCIES w)).
    split; [by rewrite list_lookup_middle|].
    split.
    { rewrite <- app_assoc. cbn [app]. by rewrite list_lookup_middle. }
    split.
    { rewrite list_lookup_middle; [done|]. rewrite length_app. simpl. lia. }
    split; [done|]. split; [done|]. split.
    + intros w' l' w1' HL HD.
      rewrite objects_check_dependencies_unfold, HL, HD.
      intros [= <- <-].
      cbn [Objects.heap Objects.stdout].
      split; [by rewrite list_lookup_middle|done].
    + intros out. apply check_dependencies_unfold.
Qed.

Lemma C9_two_runs_agree_witness :
  ∃ vs ws,
    vs = [mkViolation "A" 1 "B" 2 "第1层 → 第2层"] ∧
    ws = ["⚠️  警告: 依赖 Z 不在层级映射中"] ∧
    Objects.heap
      (Objects.check_dependencies
         (Objects.check_dependencies
            (Objects.mkWorld (dict_literal [("A", 1); ("B", 2)])
               [("A", ["B"; "Z"])] [[]] ["earlier"])).2).2 !! 2%nat =
      Some vs ∧
    Objects.stdout
      (Objects.check_dependencies
         (Objects.check_dependencies
            (Objects.mkWorld (dict_literal [("A", 1); ("B", 2)])
               [("A", ["B"; "Z"])] [[]] ["earlier"])).2).2 =
      ["earlier"] ++ ws ++ ws.
Proof.
  destruct (C9_two_runs_agree
              (Objects.mkWorld (dict_literal [("A", 1); ("B", 2)])
                 [("A", ["B"; "Z"])] [[]] ["earlier"])
              (Objects.check_dependencies
                 (Objects.mkWorld (dict_literal [("A", 1); ("B", 2)])
                    [("A", ["B"; "Z"])] [[]] ["earlier"])).2
              (Objects.check_dependencies
                 (Objects.check_dependencies
                    (Objects.mkWorld (dict_literal [("A", 1); ("B", 2)])
                       [("A", ["B"; "Z"])] [[]] ["earlier"])).2).2
              1%nat 2%nat eq_refl eq_refl)
    as (_ & _ & _ & vs & ws & H1 & _ & H2 & Hout1 & Hout2 & _ & _).
  exists vs, ws.
  assert (vs = [mkViolation "A" 1 "B" 2 "第1层 → 第2层"]) as Hvs.
  { vm_compute in H1. by injection H1 as <-. }
  assert (ws = ["⚠️  警告: 依赖 Z 不在层级映射中"]) as Hws.
  { vm_compute in Hout1. by injection Hout1 as <-. }
  split; [exact Hvs|]. split; [exact Hws|]. split; [exact H2|].
  rewrite Hout2, Hout1. by rewrite <- app_assoc.
Defined.

(** ** C10: the shipped tables *)

(** C10. On the two tables of the source, [check_dependencies] returns the
    empty list and prints nothing; every key of the dependency table is a
    key of the layer map, and every declared dependency is [eventBus] or
    [stateManager] or lies in a layer not above its source's; [main]
    returns 0 and the script exits with status 0 after the success
    report. *)
Theorem C10_shipped_model_clean :
  check_dependencies Shipped.SERVICE_LAYERS Shipped.DEPENDENCIES [] =
    ([], []) ∧
  Forall (fun item => is_Some (Shipped.SERVICE_LAYERS !! item.1))
    Shipped.DEPENDENCIES ∧
  Forall
    (fun e =>
       e.2 ∈ always_allowed ∨
       ∃ ls ld : Z, Shipped.SERVICE_LAYERS !! e.1 = Some ls ∧
                    Shipped.SERVICE_LAYERS !! e.2 = Some ld ∧ (ld ≤ ls)%Z)
    (declared_edges Shipped.DEPENDENCIES) ∧
  (main Shipped.SERVICE_LAYERS Shipped.DEPENDENCIES []).1 = 0 ∧
  script Shipped.SERVICE_LAYERS Shipped.DEPENDENCIES =
    (0, [ str_repeat "=" 80;
          "检查架构分层违规：反向依赖（下层→上层）";
          str_repeat "=" 80;
          EmptyString;
          "OK - 未发现反向依赖违规！所有服务都符合架构分层原则。";
          EmptyString;
          "依赖方向检查通过：";
          "   - 所有服务只依赖同层或更低层的服务";
          "   - 没有下层服务依赖上层服务的情况";
          str_repeat "=" 80 ]) ∧
  exit_code Shipped.SERVICE_LAYERS Shipped.DEPENDENCIES = 0.
Proof.
  split; [vm_compute; reflexivity|].
  split.
  { unfold Shipped.DEPENDENCIES.
    repeat (apply Forall_cons; split; [eexists; vm_compute; reflexivity|]).
    apply Forall_nil_2. }
  split.
  { unfold Shipped.DEPENDENCIES, declared_edges.
    cbn [mbind list_bind fmap list_fmap app fst snd].
    repeat (apply Forall_cons; split;
      [ first
          [ left; apply list_elem_of_here
          | left; apply list_elem_of_further, list_elem_of_here
          | right; eexists _, _;
            split; [vm_compute; reflexivity|
            split; [vm_compute; reflexivity|discriminate]] ]
      |]).
    apply Forall_nil_2. }
  split; [vm_compute; reflexivity|].
  split; vm_compute; reflexivity.
Qed.


(** * Further properties of the script *)

(** ** What the returned records are *)

(** X1. Every record returned by [check_dependencies] stands for a declared
    edge between two listed names whose layers, as found in the layer map,
    are strictly increasing from the service to its dependency, and its
    text is made of these two layers: nothing is reported that is not an
    upward edge. *)
Theorem X1_every_record_is_a_declared_upward_edge
    (L : gmap string Z) (D : list (string * list string))
    (out : list string) (v : Violation) :
  v ∈ (check_dependencies L D out).1 →
  (∃ ds, (service v, ds) ∈ D ∧ dependency v ∈ ds) ∧
  L !! service v = Some (service_layer v) ∧
  L !! dependency v = Some (dependency_layer v) ∧
  service_layer v < dependency_layer v ∧
  violation v = violation_text (service_layer v) (dependency_layer v).
Proof.
  rewrite check_dependencies_unfold. cbn [fst]. intros Hv.
  apply elem_of_violations in Hv
    as (s & ds & d & ls & ld & HD & Hd & Hs & Hl & Hlt & ->).
  simpl. eauto 10.
Qed.

Lemma X1_every_record_is_a_declared_upward_edge_witness :
  (∃ ds, ("A", ds) ∈ [("A", ["C"; "B"])] ∧ "B" ∈ ds) ∧
  dict_literal [("A", 1); ("B", 2); ("C", 1)] !! "A" = Some 1 ∧
  dict_literal [("A", 1); ("B", 2); ("C", 1)] !! "B" = Some 2 ∧
  1 < 2 ∧
  "第1层 → 第2层" = violation_text 1 2.
Proof.
  refine (X1_every_record_is_a_declared_upward_edge
            (dict_literal [("A", 1); ("B", 2); ("C", 1)])
            [("A", ["C"; "B"])] []
            (mkViolation "A" 1 "B" 2 "第1层 → 第2层") _).
  vm_compute. apply list_elem_of_here.
Defined.

(** ** What is printed *)

Lemma elem_of_service_warnings
    (L : gmap string Z) (s : string) (ds : list string) (w : string) :
  w ∈ service_warnings L (s, ds) ↔
    (L !! s = None ∧ w = warn_service s) ∨
    (is_Some (L !! s) ∧
     ∃ d, d ∈ ds ∧ L !! d = None ∧ (d ∉ always_allowed) ∧ w = warn_dep d).
Proof.
  unfold service_warnings. simpl. destruct (L !! s) as [ls|] eqn:Hs.
  - rewrite list_elem_of_omap. split.
    + intros (d & Hd & Hw). right. split; [by eexists|].
      exists d. unfold dep_warning in Hw.
      destruct (L !! d); [done|]. case_bool_decide; [done|].
      by injection Hw as <-.
    + intros [[? _]|[_ (d & Hd & Hl & Ha & ->)]]; [done|].
      exists d. split; [done|]. unfold dep_warning. rewrite Hl.
      by rewrite bool_decide_eq_false_2.
  - rewrite list_elem_of_singleton. split.
    + intros ->. by left.
    + intros [[_ ->]|[[? ?] _]]; done.
Qed.

(** X2. The lines printed by [check_dependencies] are exactly these: for
    each key of the dependency table that is missing from the layer map,
    the line naming it; and for each dependency of a listed key that is
    missing from the layer map and is not [eventBus] or [stateManager], the
    line naming the dependency. Nothing else is printed, in particular
    nothing about a violation. *)
Theorem X2_printed_lines_are_the_warnings
    (L : gmap string Z) (D : list (string * list string))
    (out : list string) :
  ∃ printed,
    (check_dependencies L D out).2 = out ++ printed ∧
    ∀ w, w ∈ printed ↔
      (∃ s ds, (s, ds) ∈ D ∧ L !! s = None ∧ w = warn_service s) ∨
      (∃ s ds d, (s, ds) ∈ D ∧ is_Some (L !! s) ∧ d ∈ ds ∧
                 L !! d = None ∧ (d ∉ always_allowed) ∧ w = warn_dep d).
Proof.
  exists (warnings_in_discovery_order L D).
  rewrite check_dependencies_unfold. split; [done|]. intros w.
  unfold warnings_in_discovery_order. rewrite list_elem_of_bind. split.
  - intros ([s ds] & Hw & HD).
    apply elem_of_service_warnings in Hw
      as [[Hs ->]|[Hs (d & Hd & Hl & Ha & ->)]].
    + left. by exists s, ds.
    + right. by exists s, ds, d.
  - intros [(s & ds & HD & Hs & ->)|(s & ds & d & HD & Hs & Hd & Hl & Ha & ->)].
    + exists (s, ds). split; [|done].
      apply elem_of_service_warnings. by left.
    + exists (s, ds). split; [|done].
      apply elem_of_service_warnings. right. split; [done|]. by exists d.
Qed.

(** ** When the script succeeds *)

(** X3. The script exits with status 0 exactly when no declared edge
    between two listed names goes upward, and with status 1 exactly when
    some declared edge between two listed names does; names missing from
    the layer map have no influence on the status. *)
Theorem X3_exit_status_decides_the_layering
    (L : gmap string Z) (D : list (string * list string)) :
  (exit_code L D = 0 ↔
     ∀ s ds d ls ld,
       (s, ds) ∈ D → d ∈ ds → L !! s = Some ls → L !! d = Some ld →
       (ld ≤ ls)%Z) ∧
  (exit_code L D = 1 ↔
     ∃ s ds d ls ld,
       (s, ds) ∈ D ∧ d ∈ ds ∧ L !! s = Some ls ∧ L !! d = Some ld ∧
       ls < ld).
Proof.
  rewrite exit_code_unfold. split.
  - case_bool_decide as Hvs.
    + split; [|done]. intros _ s ds d ls ld HD Hd Hs Hl.
      destruct (decide (ls < ld)) as [Hlt|]; [|lia].
      assert (mkViolation s ls d ld (violation_text ls ld) ∈
                violations_in_discovery_order L D) as Hin.
      { apply elem_of_violations. by exists s, ds, d, ls, ld. }
      rewrite Hvs in Hin. by apply elem_of_nil in Hin.
    + split; [done|]. intros Hall. destruct Hvs.
      destruct (violations_in_discovery_order L D) as [|v vs] eqn:E; [done|].
      assert (v ∈ violations_in_discovery_order L D) as Hv.
      { rewrite E. apply list_elem_of_here. }
      apply elem_of_violations in Hv
        as (s & ds & d & ls & ld & HD & Hd & Hs & Hl & Hlt & _).
      specialize (Hall s ds d ls ld HD Hd Hs Hl). lia.
  - case_bool_decide as Hvs.
    + split; [done|].
      intros (s & ds & d & ls & ld & HD & Hd & Hs & Hl & Hlt).
      assert (mkViolation s ls d ld (violation_text ls ld) ∈
                violations_in_discovery_order L D) as Hin.
      { apply elem_of_violations. by exists s, ds, d, ls, ld. }
      rewrite Hvs in Hin. by apply elem_of_nil in Hin.
    + split; [|done]. intros _.
      destruct (violations_in_discovery_order L D) as [|v vs] eqn:E; [done|].
      assert (v ∈ violations_in_discovery_order L D) as Hv.
      { rewrite E. apply list_elem_of_here. }
      apply elem_of_violations in Hv
        as (s & ds & d & ls & ld & HD & Hd & Hs & Hl & Hlt & _).
      by exists s, ds, d, ls, ld.
Qed.

(** ** Tables in two parts *)

(** X4. Checking a dependency table made of two parts is checking the
    first part and then the second, started from the output the first
    left: the returned sequence is the two returned sequences one after
    the other, and the output is the output of the second run. *)
Theorem X4_table_in_two_parts
    (L : gmap string Z) (D1 D2 : list (string * list string))
    (out : list string) :
  check_dependencies L (D1 ++ D2) out =
    ((check_dependencies L D1 out).1 ++
       (check_dependencies L D2 (check_dependencies L D1 out).2).1,
     (check_dependencies L D2 (check_dependencies L D1 out).2).2).
Proof.
  rewrite !check_dependencies_unfold. cbn [fst snd].
  by rewrite violations_app, warnings_app, app_assoc.
Qed.

(** ** The order of the table *)

(** X5. Listing the items of the dependency table in another order only
    reorders the findings: the returned records are the same up to order,
    so are the printed lines, and the exit status is the same. *)
Theorem X5_item_order_only_reorders_findings
    (L : gmap string Z) (D D' : list (string * list string))
    (out : list string) :
  D ≡ₚ D' →
  (check_dependencies L D out).1 ≡ₚ (check_dependencies L D' out).1 ∧
  (∃ printed printed',
     (check_dependencies L D out).2 = out ++ printed ∧
     (check_dependencies L D' out).2 = out ++ printed' ∧
     printed ≡ₚ printed') ∧
  exit_code L D = exit_code L D'.
Proof.
  intros HD. rewrite !check_dependencies_unfold, !exit_code_unfold.
  cbn [fst snd].
  assert (violations_in_discovery_order L D ≡ₚ
            violations_in_discovery_order L D') as Hvs.
  { unfold violations_in_discovery_order, declared_edges.
    apply omap_Permutation, bind_Permutation, HD. }
  split; [done|]. split.
  - exists (warnings_in_discovery_order L D),
           (warnings_in_discovery_order L D').
    split; [done|]. split; [done|].
    unfold warnings_in_discovery_order. apply bind_Permutation, HD.
  - destruct (violations_in_discovery_order L D) as [|v vs].
    + apply Permutation_nil_l in Hvs. by rewrite <- Hvs.
    + destruct (violations_in_discovery_order L D') as [|v' vs']; [|done].
      by apply Permutation_nil_r in Hvs.
Qed.

Lemma X5_item_order_only_reorders_findings_witness :
  (check_dependencies (dict_literal [("A", 1); ("B", 2); ("C", 3)])
     [("A", ["B"]); ("B", ["C"; "Z"]); ("X", [])] []).1 ≡ₚ
  (check_dependencies (dict_literal [("A", 1); ("B", 2); ("C", 3)])
     [("X", []); ("B", ["C"; "Z"]); ("A", ["B"])] []).1.
Proof.
  refine (proj1 (X5_item_order_only_reorders_findings
            (dict_literal [("A", 1); ("B", 2); ("C", 3)])
            [("A", ["B"]); ("B", ["C"; "Z"]); ("X", [])]
            [("X", []); ("B", ["C"; "Z"]); ("A", ["B"])] [] _)).
  etransitivity; [apply Permutation_swap|].
  etransitivity; [apply Permutation_skip, Permutation_swap|].
  etransitivity; [apply Permutation_swap|]. reflexivity.
Defined.

(** ** Renumbering the layers *)

Section Renumbering.

Context (L : gmap string Z) (f : Z → Z).
Hypothesis f_order : ∀ x y, x < y ↔ f x < f y.

Lemma dep_warning_renumber (d : string) :
  dep_warning (f <$> L) d = dep_warning L d.
Proof.
  unfold dep_warning. rewrite lookup_fmap. by destruct (L !! d).
Qed.

Lemma service_warnings_renumber (item : string * list string) :
  service_warnings (f <$> L) item = service_warnings L item.
Proof.
  unfold service_warnings. rewrite lookup_fmap.
  destruct (L !! item.1); simpl; [|done].
  induction (item.2) as [|d ds IH]; [done|].
  rewrite !omap_cons_case, dep_warning_renumber. by rewrite IH.
Qed.

Lemma edge_record_renumber (e : string * string) :
  edge_record (f <$> L) e = renumber f <$> edge_record L e.
Proof.
  unfold edge_record, dep_record. rewrite !lookup_fmap.
  destruct (L !! e.1) as [ls|]; simpl; [|done].
  destruct (L !! e.2) as [ld|]; simpl; [|done].
  destruct (decide (ls < ld)) as [Hlt|Hge].
  - assert (f ls < f ld) by (by apply (proj1 (f_order ls ld))).
    by rewrite !bool_decide_eq_true_2.
  - assert (¬ f ls < f ld) by (by intros ?%(proj2 (f_order ls ld))).
    by rewrite !bool_decide_eq_false_2.
Qed.

End Renumbering.

(** X6. Only the order of the layer numbers matters. If every layer is
    renumbered by a function that keeps the order [<], the same edges are
    returned, each record carrying the renumbered layers, the same lines
    are printed, and the exit status is the same. *)
Theorem X6_renumbering_layers_keeps_findings
    (L : gmap string Z) (D : list (string * list string))
    (out : list string) (f : Z → Z) :
  (∀ x y, x < y ↔ f x < f y) →
  (check_dependencies (f <$> L) D out).1 =
    renumber f <$> (check_dependencies L D out).1 ∧
  (check_dependencies (f <$> L) D out).2 = (check_dependencies L D out).2 ∧
  exit_code (f <$> L) D = exit_code L D.
Proof.
  intros Hf.
  assert (violations_in_discovery_order (f <$> L) D =
            renumber f <$> violations_in_discovery_order L D) as Hvs.
  { unfold violations_in_discovery_order. rewrite list_fmap_omap.
    induction (declared_edges D) as [|e es IH]; [done|].
    rewrite !omap_cons_case, IH, (edge_record_renumber L f Hf). done. }
  rewrite !check_dependencies_unfold, !exit_code_unfold, Hvs. cbn [fst snd].
  split; [done|]. split.
  - f_equal. unfold warnings_in_discovery_order.
    apply list_bind_ext; [|done]. apply service_warnings_renumber.
  - by destruct (violations_in_discovery_order L D).
Qed.

Lemma X6_renumbering_layers_keeps_findings_witness :
  (check_dependencies
     ((fun x => 10 * x) <$> dict_literal [("A", 1); ("B", 2)])
     [("A", ["B"; "Z"])] []).1 =
  renumber (fun x => 10 * x) <$>
    (check_dependencies (dict_literal [("A", 1); ("B", 2)])
       [("A", ["B"; "Z"])] []).1.
Proof.
  refine (proj1 (X6_renumbering_layers_keeps_findings
            (dict_literal [("A", 1); ("B", 2)]) [("A", ["B"; "Z"])] []
            (fun x => 10 * x) _)).
  intros x y. lia.
Defined.

(** ** The report printed by main *)

Lemma concat_imap_lookup {A B} (n : nat) (g : nat → A → list B)
    (l : list A) (k : nat) (x : A) (j : nat) :
  (∀ i y, length (g i y) = n) →
  l !! k = Some x → (j < n)%nat →
  concat (imap g l) !! (n * k + j)%nat = g k x !! j.
Proof.
  intros Hlen. revert g Hlen k.
  induction l as [|y l IH]; intros g Hlen k Hk Hj; [done|].
  rewrite imap_cons. cbn [concat]. destruct k as [|k].
  - injection Hk as ->. rewrite Nat.mul_0_r, Nat.add_0_l.
    apply lookup_app_l. by rewrite Hlen.
  - rewrite lookup_app_r by (rewrite Hlen; lia). rewrite Hlen.
    replace (n * S k + j - n)%nat with (n * k + j)%nat by lia.
    apply (IH (g ∘ S)); [|done..]. intros i z. apply Hlen.
Qed.

Lemma length_concat_imap {A B} (n : nat) (g : nat → A → list B)
    (l : list A) :
  (∀ i y, length (g i y) = n) →
  length (concat (imap g l)) = (n * length l)%nat.
Proof.
  intros Hlen. revert g Hlen.
  induction l as [|y l IH]; intros g Hlen; [simpl; lia|].
  rewrite imap_cons. cbn [concat length]. rewrite length_app, Hlen.
  rewrite (IH (g ∘ S)) by (intros i z; apply Hlen). lia.
Qed.

(** X8. In the report, every violation takes five lines and the blocks
    follow the order of the list, numbered from 1: the block of the
    violation at position [k] (counting from 0) occupies lines [5 k] to
    [5 k + 4] and is the block numbered [k + 1]; past the last block there
    is nothing. *)
Theorem X8_blocks_are_five_lines_numbered_from_one
    (vs : list Violation) (k : nat) (v : Violation) (j : nat) :
  vs !! k = Some v → (j < 5)%nat →
  violation_blocks vs !! (5 * k + j)%nat =
    violation_block (Z.of_nat k + 1) v !! j ∧
  length (violation_blocks vs) = (5 * length vs)%nat ∧
  violation_blocks vs !! (5 * length vs)%nat = None.
Proof.
  intros Hk Hj. unfold violation_blocks.
  assert (Hlen : length (concat
            (imap (fun i v => violation_block (Z.of_nat i + 1) v) vs)) =
            (5 * length vs)%nat).
  { by apply length_concat_imap. }
  split; [|split; [done|]].
  - by rewrite (concat_imap_lookup 5 _ vs k v j).
  - apply lookup_ge_None. by rewrite Hlen.
Qed.

Lemma X8_blocks_are_five_lines_numbered_from_one_witness :
  violation_blocks
    [ mkViolation "A" 1 "B" 2 "第1层 → 第2层";
      mkViolation "B" 2 "C" 3 "第2层 → 第3层" ] !! (5 * 1 + 0)%nat =
  Some "2. B (第2层)".
Proof.
  refine (proj1 (X8_blocks_are_five_lines_numbered_from_one
            [ mkViolation "A" 1 "B" 2 "第1层 → 第2层";
              mkViolation "B" 2 "C" 3 "第2层 → 第3层" ]
            1%nat (mkViolation "B" 2 "C" 3 "第2层 → 第3层") 0%nat _ _)).
  - reflexivity.
  - lia.
Defined.

(** ** Names the layer map does not list *)

(** X9. When no key of the dependency table is listed in the layer map (an
    empty layer map, for instance), the dependency lists are never looked
    at: nothing is returned, exactly one line is printed per item, in the
    order of the table, and the script exits with status 0. *)
Theorem X9_no_listed_source_no_violation
    (L : gmap string Z) (D : list (string * list string))
    (out : list string) :
  Forall (fun item => L !! item.1 = None) D →
  check_dependencies L D out =
    ([], out ++ ((fun item => warn_service item.1) <$> D)) ∧
  exit_code L D = 0.
Proof.
  intros HD. rewrite exit_code_unfold, check_dependencies_unfold.
  assert (violations_in_discovery_order L D = [] ∧
          warnings_in_discovery_order L D =
            (fun item => warn_service item.1) <$> D) as [-> ->].
  { induction HD as [|[s ds] D Hs _ [IHv IHw]]; [done|].
    simpl in Hs. rewrite violations_cons, warnings_cons, IHv, IHw.
    rewrite omap_edge_record_unknown by done.
    unfold service_warnings. simpl. by rewrite Hs. }
  done.
Qed.

Lemma X9_no_listed_source_no_violation_witness :
  check_dependencies ∅ [("A", ["B"; "eventBus"]); ("B", [])] [] =
    ([], [] ++ ((fun item => warn_service item.1) <$>
                  [("A", ["B"; "eventBus"]); ("B", [])])).
Proof.
  refine (proj1 (X9_no_listed_source_no_violation
            ∅ [("A", ["B"; "eventBus"]); ("B", [])] [] _)).
  repeat (apply Forall_cons; split; [reflexivity|]). apply Forall_nil_2.
Defined.

(** ** Edges that leave no trace *)

(** X10. Taking one declared dependency [d] out of the list of [s] leaves
    the result (the returned sequence and the output) unchanged exactly
    when the edge is silent: [s] is not listed, or [d] is an unlisted
    always-allowed name, or [d] is listed in a layer not above the layer of
    [s]. Every other edge shows in the result. *)
Theorem X10_edge_removable_iff_silent
    (L : gmap string Z) (D1 D2 : list (string * list string))
    (s : string) (ds1 ds2 : list string) (d : string)
    (out : list string) :
  check_dependencies L (D1 ++ (s, ds1 ++ d :: ds2) :: D2) out =
    check_dependencies L (D1 ++ (s, ds1 ++ ds2) :: D2) out
  ↔ edge_silent L s d.
Proof.
  rewrite !check_dependencies_unfold.
  rewrite !violations_app, !violations_cons, !warnings_app, !warnings_cons.
  destruct (L !! s) as [ls|] eqn:Hs.
  - rewrite (edge_silent_known L s d ls) by done.
    rewrite !(omap_edge_record L s ls), !(service_warnings_known L s ls)
      by done.
    rewrite !omap_app, !omap_cons_case.
    destruct (dep_record L s ls d) as [v|]; [|destruct (dep_warning L d)].
    + split; [|by intros [? _]]. intros Heq.
      apply (f_equal (fun r => length r.1)) in Heq. cbn [fst] in Heq.
      rewrite !length_app in Heq. simpl in Heq. lia.
    + split; [|by intros [_ ?]]. intros Heq.
      apply (f_equal (fun r => length r.2)) in Heq. cbn [snd] in Heq.
      rewrite !length_app in Heq. simpl in Heq. lia.
    + done.
  - unfold edge_silent. rewrite Hs.
    rewrite !omap_edge_record_unknown by done.
    unfold service_warnings. simpl. by rewrite Hs.
Qed.

(** ** The part of the layer map that is read *)

Lemma omap_ext_elem_of {A B} (f g : A → option B) (l : list A) :
  (∀ x, x ∈ l → f x = g x) → omap f l = omap g l.
Proof.
  intros Hfg. induction l as [|x l IH]; [done|].
  rewrite !omap_cons_case, (Hfg x) by apply list_elem_of_here.
  rewrite IH; [done|]. intros y Hy. apply Hfg. by apply list_elem_of_further.
Qed.

(** X11. The result depends on the layer map only through the names that
    occur in the dependency table, as keys or as dependencies: two layer
    maps that agree on these names give the same returned sequence, the
    same output and the same exit status. Listing, relisting or unlisting
    a name the table never mentions changes nothing. *)
Theorem X11_only_mentioned_names_are_read
    (L L' : gmap string Z) (D : list (string * list string))
    (out : list string) :
  (∀ s ds, (s, ds) ∈ D →
     L !! s = L' !! s ∧ ∀ d, d ∈ ds → L !! d = L' !! d) →
  check_dependencies L D out = check_dependencies L' D out ∧
  exit_code L D = exit_code L' D.
Proof.
  intros Hagree.
  assert (violations_in_discovery_order L D =
            violations_in_discovery_order L' D) as Hvs.
  { unfold violations_in_discovery_order. apply omap_ext_elem_of.
    intros [s d] (ds & HD & Hd)%elem_of_declared_edges.
    destruct (Hagree s ds HD) as [Hs Hds].
    unfold edge_record, dep_record. simpl. by rewrite Hs, (Hds d Hd). }
  assert (warnings_in_discovery_order L D =
            warnings_in_discovery_order L' D) as Hws.
  { unfold warnings_in_discovery_order. apply Forall_bind_ext.
    apply Forall_forall. intros [s ds] HD.
    destruct (Hagree s ds HD) as [Hs Hds].
    unfold service_warnings. simpl. rewrite Hs.
    destruct (L' !! s); [|done]. apply omap_ext_elem_of.
    intros d Hd. unfold dep_warning. by rewrite (Hds d Hd). }
  by rewrite !exit_code_unfold, !check_dependencies_unfold, Hvs, Hws.
Qed.

Lemma X11_only_mentioned_names_are_read_witness :
  check_dependencies (<["unused" := 0]> (dict_literal [("A", 1); ("B", 2)]))
      [("A", ["B"; "Z"])] [] =
    check_dependencies (dict_literal [("A", 1); ("B", 2)])
      [("A", ["B"; "Z"])] [].
Proof.
  refine (proj1 (X11_only_mentioned_names_are_read
            (<["unused" := 0]> (dict_literal [("A", 1); ("B", 2)]))
            (dict_literal [("A", 1); ("B", 2)])
            [("A", ["B"; "Z"])] [] _)).
  intros s ds Hin. apply list_elem_of_singleton in Hin.
  injection Hin as -> ->. split; [reflexivity|].
  intros d Hd. apply elem_of_cons in Hd as [->|Hd]; [reflexivity|].
  apply list_elem_of_singleton in Hd as ->. reflexivity.
Defined.

(** ** How many findings *)

(** X12. Each declared edge gives at most one finding, a record or a line,
    and each item of the table at most one line of its own: the number of
    returned records plus the number of printed lines is at most the
    number of declared edges plus the number of items, and the number
    returned by [main] is between 0 and the number of declared edges. *)
Theorem X12_findings_bounded_by_the_table
    (L : gmap string Z) (D : list (string * list string))
    (out : list string) :
  (length (check_dependencies L D out).1 +
     length (check_dependencies L D out).2 ≤
   length out + length (declared_edges D) + length D)%nat ∧
  (length (check_dependencies L D out).1 ≤ length (declared_edges D))%nat ∧
  (0 ≤ (main L D out).1 ≤ Z.of_nat (length (declared_edges D)))%Z.
Proof.
  rewrite main_returns_count, check_dependencies_unfold. cbn [fst snd].
  rewrite length_app.
  assert (Hdeps : ∀ s ls (ds : list string),
            (length (omap (dep_record L s ls) ds) +
             length (omap (dep_warning L) ds) ≤ length ds)%nat).
  { intros s ls ds. induction ds as [|d ds IH]; [done|].
    rewrite !omap_cons_case, !length_app. cbn [length].
    unfold dep_record at 1, dep_warning at 1.
    destruct (L !! d); repeat case_bool_decide; simpl; lia. }
  assert (Hsum :
    (length (violations_in_discovery_order L D) +
       length (warnings_in_discovery_order L D) ≤
     length (declared_edges D) + length D)%nat ∧
    (length (violations_in_discovery_order L D) ≤
     length (declared_edges D))%nat).
  { induction D as [|[s ds] D [IH1 IH2]]; [done|].
    rewrite violations_cons, warnings_cons.
    unfold declared_edges in *. rewrite bind_cons. simpl.
    rewrite !length_app, length_fmap.
    destruct (L !! s) as [ls|] eqn:Hs.
    - rewrite (omap_edge_record L s ls), (service_warnings_known L s ls)
        by done.
      pose proof (Hdeps s ls ds). lia.
    - rewrite omap_edge_record_unknown by done.
      unfold service_warnings. simpl. rewrite Hs. simpl. lia. }
  lia.
Qed.
